(** * Gatsibo Smart Irrigation Scheduler: the dashboard's advisory conditional

    A shallow embedding of the recommendation cascade of [app.py]
    (page "Dashboard", lines 141-189) and the properties of the advisory
    classifier stated over it.

    The value tested by the cascade is an element of a row of a numeric
    pandas frame, that is an IEEE 754 binary64 number.  It is modelled by
    [spec_float] (sign, mantissa, exponent, with signed zeros, infinities and
    NaN), and Python's [<] on it by [SFltb]: a comparison with NaN is false. *)

From Stdlib Require Import ZArith QArith Qpower Qabs Lia Lqa Bool List String.
From Stdlib Require Import SpecFloat DecimalString DecimalN DecimalZ Ascii.
Import ListNotations.

Local Open Scope Z_scope.

(** ** binary64 numbers *)

Module Float64.

Definition prec : Z := 53.
Definition emax : Z := 1024.

Definition float64 : Type := spec_float.

(** The representations that are binary64 numbers: a finite one has a
    canonical mantissa and an exponent in range. *)
Definition is_float64 (x : float64) : bool := valid_binary prec emax x.

Definition nan : float64 := S754_nan.
Definition pos_infinity : float64 := S754_infinity false.
Definition neg_infinity : float64 := S754_infinity true.
Definition neg_zero : float64 := S754_zero true.

(** Conversion of a Python [int] operand, as done by the comparison of a
    [numpy.float64] with an [int]: rounding to nearest, ties to even. *)
Definition float_of_int (z : Z) : float64 := binary_normalize prec emax z 0 false.

(** A decimal literal [n / 10^k] of the scenarios (4.999 is
    [float_of_decimal 4999 3]): the binary64 number nearest to it, which is
    the correctly rounded quotient of two exactly represented integers. *)
Definition float_of_decimal (n : Z) (k : nat) : float64 :=
  SFdiv prec emax (float_of_int n) (float_of_int (10 ^ Z.of_nat k)).

(** Python's [a < b] on floats. *)
Definition lt (a b : float64) : bool := SFltb a b.

(** Python's [a == b] on floats: [0.0 == -0.0], and NaN equals nothing. *)
Definition eqb (a b : float64) : bool := SFeqb a b.

(** The real number a finite binary64 stands for, as an exact rational;
    infinities and NaN stand for none. *)
Definition value (x : float64) : option Q :=
  match x with
  | S754_zero _ => Some 0%Q
  | S754_finite s m e => Some (inject_Z (cond_Zopp s (Zpos m)) * 2 ^ e)%Q
  | S754_infinity _ | S754_nan => None
  end.

(** [x] is a finite binary64 whose real value is [q]. *)
Definition has_value (x : float64) (q : Q) : Prop :=
  match value x with
  | Some v => (v == q)%Q
  | None => False
  end.

End Float64.

Import Float64.

Local Open Scope string_scope.

(** ** The data of the dashboard *)

(** A row of [gatsibo_irrigation_schedule_weekly.csv], with the columns the
    application reads. *)
Record WeeklyRecord : Type := {
  ETc_week_mm : float64;
  Rainfall_week_mm : float64;
  Rainfall_effective_mm : float64;
  Irrigation_needed_mm : float64
}.

(** The three variables the cascade assigns. *)
Record Advisory : Type := {
  recommendation : string;
  color : string;
  advice : string
}.

(** ** The cascade, lines 166-181 *)

Definition classify (irrigation_needed_mm : float64) : Advisory :=
  if lt irrigation_needed_mm (float_of_int 5) then
    {| recommendation := "MINIMAL irrigation needed";
       color := "#4CAF50";
       advice := "Recent rainfall is sufficient. Monitor crop condition." |}
  else if lt irrigation_needed_mm (float_of_int 20) then
    {| recommendation := "LIGHT irrigation recommended";
       color := "#FFC107";
       advice := "Supplement rainfall with light irrigation." |}
  else if lt irrigation_needed_mm (float_of_int 40) then
    {| recommendation := "MODERATE irrigation required";
       color := "#FF9800";
       advice := "Regular irrigation needed to maintain crop health." |}
  else
    {| recommendation := "HEAVY irrigation required";
       color := "#F44336";
       advice := "Crop water stress likely. Irrigate immediately!" |}.

(** The cascade reads one column of the row, at each of its tests. *)
Definition recommend (latest_week : WeeklyRecord) : Advisory :=
  classify (Irrigation_needed_mm latest_week).

(** ** Tiers *)

Inductive Tier : Type := MINIMAL | LIGHT | MODERATE | HEAVY.

Definition severity_rank (t : Tier) : nat :=
  match t with MINIMAL => 0 | LIGHT => 1 | MODERATE => 2 | HEAVY => 3 end.

Definition all_tiers : list Tier := [MINIMAL; LIGHT; MODERATE; HEAVY].

(** The tier is the first word of the heading the cascade assigns to
    [recommendation]. *)
Definition tier_of_recommendation (s : string) : option Tier :=
  if prefix "MINIMAL " s then Some MINIMAL
  else if prefix "LIGHT " s then Some LIGHT
  else if prefix "MODERATE " s then Some MODERATE
  else if prefix "HEAVY " s then Some HEAVY
  else None.

Definition tier (r : Advisory) : option Tier :=
  tier_of_recommendation (recommendation r).

(** ** The statements before the cascade *)

(** What running a block of the script gives: a value, or an exception,
    named by its class. *)
Inductive outcome (A : Type) : Type :=
  | Returned (a : A)
  | Raised (exception : string).

Arguments Returned {A} a.
Arguments Raised {A} exception.

Definition bind {A B : Type} (o : outcome A) (k : A -> outcome B) : outcome B :=
  match o with
  | Returned a => k a
  | Raised exn => Raised exn
  end.

Notation "x <- o ;; k" := (bind o (fun x => k))
  (at level 61, o at next level, right associativity).

(** [frame.iloc[i]]: the row at position [i], counted from the end when [i]
    is negative; [IndexError] when there is no such row. *)
Definition iloc {A : Type} (rows : list A) (i : Z) : outcome A :=
  let n := Z.of_nat (List.length rows) in
  let j := if (i <? 0)%Z then (n + i)%Z else i in
  if (j <? 0)%Z || (n <=? j)%Z then Raised "IndexError"
  else match nth_error rows (Z.to_nat j) with
       | Some r => Returned r
       | None => Raised "IndexError"
       end.

(** The cascade as a statement: it has no [raise], and [<] between binary64
    numbers raises nothing. *)
Definition classify_outcome (irrigation_needed_mm : float64) : outcome Advisory :=
  Returned (classify irrigation_needed_mm).

(** ** Number formatting, [f"{x:.kf}"] *)

Module Format.

(** The integer nearest to [num / den], the even one on a tie, for [num >= 0]
    and [den > 0]: the rounding of Python's float formatting, which is exact
    on the binary value. *)
Definition round_half_even (num den : Z) : Z :=
  let q := (num / den)%Z in
  let r := (num mod den)%Z in
  match (2 * r ?= den)%Z with
  | Lt => q
  | Gt => (q + 1)%Z
  | Eq => if Z.even q then q else (q + 1)%Z
  end.

(** The magnitude [m * 2^e], in units of [10^-k], rounded to an integer. *)
Definition round_magnitude (k : nat) (m : positive) (e : Z) : Z :=
  if (0 <=? e)%Z then (Zpos m * 2 ^ e * 10 ^ Z.of_nat k)%Z
  else round_half_even (Zpos m * 10 ^ Z.of_nat k) (2 ^ (- e)).

(** The decimal digits of a natural number. *)
Definition digits (n : Z) : string :=
  NilEmpty.string_of_uint (N.to_uint (Z.to_N n)).

Fixpoint zeros (n : nat) : string :=
  match n with
  | O => ""
  | S n' => String "0" (zeros n')
  end.

(** [n] units of [10^-k] in fixed notation: no point when [k] is 0, else
    [k] digits after it. *)
Definition fixed (k : nat) (n : Z) : string :=
  match k with
  | O => digits n
  | S _ =>
      let frac := digits (n mod 10 ^ Z.of_nat k) in
      digits (n / 10 ^ Z.of_nat k) ++ "." ++
      zeros (k - String.length frac) ++ frac
  end.

Definition sign (s : bool) : string := if s then "-" else "".

(** [format(x, ".kf")] on a float: the sign bit shows even on a zero
    result, NaN and the infinities have their names. *)
Definition format_f (k : nat) (x : float64) : string :=
  match x with
  | S754_nan => "nan"
  | S754_infinity s => sign s ++ "inf"
  | S754_zero s => sign s ++ fixed k 0
  | S754_finite s m e => sign s ++ fixed k (round_magnitude k m e)
  end.

(** Reading a decimal integer back. *)
Definition parse_int (s : string) : option Z :=
  option_map Z.of_int (NilZero.int_of_string s).

End Format.

(** ** The dates of the schedule, lines 146 and 151 *)

(** An entry of the index of a frame read with [parse_dates=True]: a date, a
    missing date, or what is left of an index that did not parse (a string,
    or a float NaN among strings), which is not a date. *)
Inductive IndexEntry : Type :=
  | Timestamp (year : Z) (month day : nat)
  | NaT
  | NotADate (text : string).

(** [%b] *)
Definition abbreviated_month (month : nat) : string :=
  match month with
  | 1 => "Jan" | 2 => "Feb" | 3 => "Mar" | 4 => "Apr" | 5 => "May" | 6 => "Jun"
  | 7 => "Jul" | 8 => "Aug" | 9 => "Sep" | 10 => "Oct" | 11 => "Nov" | 12 => "Dec"
  | _ => ""
  end%nat.

(** [week_date.strftime('%b %d, %Y')]: NaT refuses with ValueError, and an
    entry that is not a date has no such method. *)
Definition strftime (week_date : IndexEntry) : outcome string :=
  match week_date with
  | Timestamp year month day =>
      let dd := Format.digits (Z.of_nat day) in
      Returned (abbreviated_month month ++ " " ++
                Format.zeros (2 - String.length dd) ++ dd ++ ", " ++
                Format.digits year)
  | NaT => Raised "ValueError"
  | NotADate _ => Raised "AttributeError"
  end.

(** The page "Dashboard" up to the cascade, on the schedule with its index:
    [latest_week] is the last row (line 145) and [week_date] the last entry
    of the index (line 146); the metric "Week Ending" formats [week_date]
    (line 151); the metric "Irrigation Needed" reads the row before the last
    for its delta (line 157); then the cascade runs on [latest_week]. *)
Definition dashboard_page (weekly_schedule : list (IndexEntry * WeeklyRecord))
  : outcome Advisory :=
  latest_week <- iloc (map snd weekly_schedule) (-1) ;;
  week_date <- iloc (map fst weekly_schedule) (-1) ;;
  week_ending <- strftime week_date ;;
  previous_week <- iloc (map snd weekly_schedule) (-2) ;;
  classify_outcome (Irrigation_needed_mm latest_week).

(** ** The rest of the page "Dashboard" *)

(** [frame.tail(n)]: the last [n] rows, all of them when there are fewer. *)
Definition tail {A : Type} (n : nat) (rows : list A) : list A :=
  skipn (List.length rows - n) rows.

Module Chart.

(** A [go.Bar] trace, without its dates: the legend name, the color and the
    heights of the bars. *)
Record Bar : Type := {
  name : string;
  marker_color : string;
  y : list float64
}.

End Chart.

Module Metric.

(** A call of [st.metric]. *)
Record t : Type := {
  label : string;
  value : string;
  delta : option string
}.

End Metric.

(** The second, third and fourth metrics of the page, lines 153-164. *)
Definition irrigation_needed_metric (latest_week previous_week : WeeklyRecord) : Metric.t :=
  {| Metric.label := "Irrigation Needed";
     Metric.value := Format.format_f 1 (Irrigation_needed_mm latest_week) ++ " mm";
     Metric.delta :=
       Some (Format.format_f 1
               (SFsub prec emax (Irrigation_needed_mm latest_week)
                      (Irrigation_needed_mm previous_week)) ++ " mm") |}.

Definition rainfall_received_metric (latest_week : WeeklyRecord) : Metric.t :=
  {| Metric.label := "Rainfall Received";
     Metric.value := Format.format_f 1 (Rainfall_week_mm latest_week) ++ " mm";
     Metric.delta := None |}.

Definition crop_water_need_metric (latest_week : WeeklyRecord) : Metric.t :=
  {| Metric.label := "Crop Water Need";
     Metric.value := Format.format_f 1 (ETc_week_mm latest_week) ++ " mm";
     Metric.delta := None |}.

(** The amount of the line "Apply:" of the advisory panel, line 187. *)
Definition apply_amount (latest_week : WeeklyRecord) : string :=
  Format.format_f 0 (Irrigation_needed_mm latest_week).

(** The bars of "Water Balance - Last 12 Weeks", lines 193-198. *)
Definition water_balance_chart (weekly_schedule : list WeeklyRecord) : list Chart.Bar :=
  let recent_weeks := tail 12 weekly_schedule in
  [ {| Chart.name := "Crop Water Need"; Chart.marker_color := "#EF5350";
       Chart.y := map ETc_week_mm recent_weeks |};
    {| Chart.name := "Effective Rainfall"; Chart.marker_color := "#42A5F5";
       Chart.y := map Rainfall_effective_mm recent_weeks |};
    {| Chart.name := "Irrigation Required"; Chart.marker_color := "#FFA726";
       Chart.y := map Irrigation_needed_mm recent_weeks |} ].

(** ** Loading the data and the model, lines 70-96 *)

Module Script.

(** What a call gives where the text of an exception is read: a value, an
    exception with its class and its text, or the end of the run asked by
    [st.stop()]. *)
Inductive result (A : Type) : Type :=
  | Ok (a : A)
  | Exn (class message : string)
  | Stopped.

Arguments Ok {A} a.
Arguments Exn {A} class message.
Arguments Stopped {A}.

Definition bind {A B : Type} (r : result A) (k : A -> result B) : result B :=
  match r with
  | Ok a => k a
  | Exn class message => Exn class message
  | Stopped => Stopped
  end.

(** The elements the loaders put on the page. *)
Inductive element : Type :=
  | error (body : string)
  | warning (body : string).

End Script.

Notation "x <~ r ;; k" := (Script.bind r (fun x => k))
  (at level 61, r at next level, right associativity).

Section Loading.

(** [Frame] is a loaded table and [read_csv path] is [pd.read_csv] on a
    path; [Pickle] is an unpickled object and [pickle_load path] is
    [open(path, 'rb')] followed by [pickle.load]. *)
Variables Frame Pickle : Type.
Variable read_csv : string -> Script.result Frame.
Variable pickle_load : string -> Script.result Pickle.

(** The body of [load_data]; the decorator keeps what it returns for the
    next runs.  It gives the elements shown and the result. *)
Definition load_data : list Script.element * Script.result (Frame * Frame * Frame) :=
  match
    (data <~ read_csv "gatsibo_complete_irrigation_data.csv" ;;
     weekly <~ read_csv "gatsibo_irrigation_schedule_weekly.csv" ;;
     forecast <~ read_csv "irrigation_forecast_7days.csv" ;;
     Script.Ok (data, weekly, forecast))
  with
  | Script.Exn class e =>
      if (class =? "FileNotFoundError")%string
      then ([Script.error ("Data file not found: " ++ e)], Script.Stopped)
      else ([], Script.Exn class e)
  | r => ([], r)
  end.

(** The body of [load_model]. *)
Definition load_model : list Script.element * Script.result (option Pickle * option Pickle) :=
  match
    (model <~ pickle_load "irrigation_ml_model.pkl" ;;
     features <~ pickle_load "model_features.pkl" ;;
     Script.Ok (Some model, Some features))
  with
  | Script.Exn class e =>
      if (class =? "FileNotFoundError")%string
      then ([Script.warning "ML model not found. Some features will be limited."],
            Script.Ok (None, None))
      else ([], Script.Exn class e)
  | r => ([], r)
  end.

End Loading.

(** The files of [load_data], in the order it reads them. *)
Definition data_files : list string :=
  ["gatsibo_complete_irrigation_data.csv";
   "gatsibo_irrigation_schedule_weekly.csv";
   "irrigation_forecast_7days.csv"].

(** ** Navigation, lines 116-119 and the tests on [page] *)

(** The options of the radio of the sidebar. *)
Definition sections : list string :=
  ["Dashboard"; "7-Day Forecast"; "Historical Analysis"; "About Gatsibo";
   "About This Tool"].

Inductive Page : Type :=
  | Dashboard | Forecast7Day | HistoricalAnalysis | AboutGatsibo | AboutThisTool.

(** The branch of the [if]/[elif] chain on [page] that runs, if any. *)
Definition page_branch (page : string) : option Page :=
  if (page =? "Dashboard")%string then Some Dashboard
  else if (page =? "7-Day Forecast")%string then Some Forecast7Day
  else if (page =? "Historical Analysis")%string then Some HistoricalAnalysis
  else if (page =? "About Gatsibo")%string then Some AboutGatsibo
  else if (page =? "About This Tool")%string then Some AboutThisTool
  else None.

(** ** Monthly patterns of the page "Historical Analysis", lines 314-321 *)

Definition month_names : list string :=
  ["Jan"; "Feb"; "Mar"; "Apr"; "May"; "Jun"; "Jul"; "Aug"; "Sep"; "Oct"; "Nov"; "Dec"].

Section Monthly.

(** A row of the daily data comes with the month of its date; [mean] is
    the aggregation of the rows of a group. *)
Variables Row Mean : Type.
Variable mean : list Row -> Mean.

(** Some row has the key [k]. *)
Definition has_key (data : list (nat * Row)) (k : nat) : bool :=
  existsb (fun r => fst r =? k)%nat data.

(** [frame.groupby(key)]: a group for each key present, by increasing key. *)
Definition groupby (data : list (nat * Row)) : list (nat * list Row) :=
  map (fun k => (k, map snd (filter (fun r => fst r =? k)%nat data)))
      (filter (has_key data) (seq 0 (S (list_max (map fst data))))).

(** [frame.index = names]: ValueError unless there is a name for each row. *)
Definition set_index {K V : Type} (names : list string) (frame : list (K * V))
  : outcome (list (string * V)) :=
  if (List.length names =? List.length frame)%nat
  then Returned (combine names (map snd frame))
  else Raised "ValueError".

(** Lines 315-321.  [data.index.month] needs dates in the index, and the
    index of a table without rows has none: AttributeError. *)
Definition monthly_avg (data : list (nat * Row)) : outcome (list (string * Mean)) :=
  match data with
  | [] => Raised "AttributeError"
  | _ :: _ => set_index month_names (map (fun g => (fst g, mean (snd g))) (groupby data))
  end.

End Monthly.

(** * Facts *)

(** The literals of the scenarios are the binary64 numbers Python reads. *)
Example float_of_int_5_bits :
  float_of_int 5 = S754_finite false 5629499534213120 (-50).
Proof. reflexivity. Qed.

Example float_of_decimal_4_999_bits :
  float_of_decimal 4999 3 = S754_finite false 5628373634306277 (-50).
Proof. vm_compute. reflexivity. Qed.

Example float_of_decimal_19_999_bits :
  float_of_decimal 19999 3 = S754_finite false 5629218059236409 (-48).
Proof. vm_compute. reflexivity. Qed.

Example float_of_decimal_39_999_bits :
  float_of_decimal 39999 3 = S754_finite false 5629358796724765 (-47).
Proof. vm_compute. reflexivity. Qed.

Example float_of_decimal_35_5_bits :
  float_of_decimal 355 1 = S754_finite false 4996180836614144 (-47).
Proof. vm_compute. reflexivity. Qed.

(** Each is within half a unit in the last place of its decimal. *)
Example float_of_decimal_nearest :
  (exists v, value (float_of_decimal 4999 3) = Some v /\
             Qabs (v - (4999 # 1000)) <= 1 # (2 ^ 51))%Q /\
  (exists v, value (float_of_decimal 19999 3) = Some v /\
             Qabs (v - (19999 # 1000)) <= 1 # (2 ^ 49))%Q /\
  (exists v, value (float_of_decimal 39999 3) = Some v /\
             Qabs (v - (39999 # 1000)) <= 1 # (2 ^ 48))%Q.
Proof.
  repeat split; eexists; (split; [reflexivity | vm_compute; congruence]).
Qed.

(** ** Comparison of binary64 numbers and of their values *)

Section Float64Facts.

Local Open Scope Z_scope.

(** [digits2_pos m] is the number of bits of [m]. *)
Lemma digits2_pos_bounds (m : positive) :
  2 ^ (Zpos (digits2_pos m) - 1) <= Zpos m < 2 ^ Zpos (digits2_pos m).
Proof.
  induction m as [p IH | p IH |]; simpl digits2_pos.
  - rewrite Pos2Z.inj_succ, Z.pow_succ_r by lia.
    replace (Z.succ (Zpos (digits2_pos p)) - 1) with (Z.succ (Zpos (digits2_pos p) - 1)) by lia.
    rewrite Z.pow_succ_r by lia. lia.
  - rewrite Pos2Z.inj_succ, Z.pow_succ_r by lia.
    replace (Z.succ (Zpos (digits2_pos p)) - 1) with (Z.succ (Zpos (digits2_pos p) - 1)) by lia.
    rewrite Z.pow_succ_r by lia. lia.
  - simpl. lia.
Qed.

(** A binary64 mantissa has at most 53 bits, and exactly 53 unless the
    number is subnormal. *)
Lemma bounded_mantissa (m : positive) (e : Z) :
  bounded prec emax m e = true ->
  -1074 <= e <= 971 /\ Zpos m < 2 ^ 53 /\ (e = -1074 \/ 2 ^ 52 <= Zpos m).
Proof.
  unfold bounded, canonical_mantissa, fexp, SpecFloat.emin, prec, emax.
  intros H. apply andb_true_iff in H. destruct H as [Hc He].
  apply Z.eqb_eq in Hc. apply Z.leb_le in He.
  pose proof (digits2_pos_bounds m) as [Hlo Hhi].
  set (d := Zpos (digits2_pos m)) in *.
  assert (Hd : d <= 53) by lia.
  split; [lia|]. split.
  - apply Z.lt_le_trans with (1 := Hhi). apply Z.pow_le_mono_r; lia.
  - destruct (Z.eq_dec e (-1074)) as [|Hne]; [now left|right].
    assert (d = 53) by lia. replace (52) with (d - 1) by lia. exact Hlo.
Qed.

Lemma Qcompare_inject_Z (a b : Z) : (inject_Z a ?= inject_Z b)%Q = (a ?= b).
Proof. unfold Qcompare; simpl. now rewrite !Z.mul_1_r. Qed.

Lemma Qcompare_mult_pos_r (a b c : Q) :
  (0 < c)%Q -> (a * c ?= b * c)%Q = (a ?= b)%Q.
Proof.
  intros Hc. destruct (Qcompare_spec a b) as [Heq | Hlt | Hgt].
  - apply Qeq_alt. now rewrite Heq.
  - apply Qlt_alt. now apply Qmult_lt_r.
  - apply Qgt_alt. now apply Qmult_lt_r.
Qed.

Lemma two_power_pos (e : Z) : (0 < 2 ^ e)%Q.
Proof. now apply Qpower_0_lt. Qed.

Lemma dyadic_rescale (a : Z) (e k : Z) :
  0 <= k -> (inject_Z a * 2 ^ (e + k) == inject_Z (a * 2 ^ k) * 2 ^ e)%Q.
Proof.
  intros Hk. rewrite Qpower_plus by discriminate.
  rewrite inject_Z_mult, (Zpower_Qpower 2 k Hk).
  change (inject_Z 2) with 2%Q. ring.
Qed.

(** Two dyadic rationals compare as their numerators at the smaller
    exponent. *)
Lemma Qcompare_dyadic (a b : Z) (e1 e2 : Z) :
  (inject_Z a * 2 ^ e1 ?= inject_Z b * 2 ^ e2)%Q =
  (a * 2 ^ (e1 - Z.min e1 e2) ?= b * 2 ^ (e2 - Z.min e1 e2)).
Proof.
  set (e := Z.min e1 e2).
  replace e1 with (e + (e1 - e)) at 1 by lia.
  replace e2 with (e + (e2 - e)) at 1 by lia.
  rewrite (dyadic_rescale a e (e1 - e)), (dyadic_rescale b e (e2 - e)) by lia.
  rewrite Qcompare_mult_pos_r by apply two_power_pos.
  apply Qcompare_inject_Z.
Qed.

Lemma pow2_pos (k : Z) : 0 <= k -> 0 < 2 ^ k.
Proof. intros; apply Z.pow_pos_nonneg; lia. Qed.

Lemma pow2_ge_2 (k : Z) : 0 < k -> 2 <= 2 ^ k.
Proof.
  intros Hk. change 2 with (2 ^ 1) at 1. apply Z.pow_le_mono_r; lia.
Qed.

(** Magnitudes of two binary64 numbers are ordered first by exponent. *)
Lemma magnitude_compare (m1 m2 : positive) (e1 e2 : Z) :
  bounded prec emax m1 e1 = true -> bounded prec emax m2 e2 = true ->
  (Zpos m1 * 2 ^ (e1 - Z.min e1 e2) ?= Zpos m2 * 2 ^ (e2 - Z.min e1 e2)) =
  match e1 ?= e2 with
  | Lt => Lt
  | Gt => Gt
  | Eq => Pos.compare_cont Eq m1 m2
  end.
Proof.
  intros H1 H2.
  destruct (bounded_mantissa _ _ H1) as (He1 & Hm1 & Hn1).
  destruct (bounded_mantissa _ _ H2) as (He2 & Hm2 & Hn2).
  destruct (Z.compare_spec e1 e2) as [Heq | Hlt | Hgt].
  - subst e2. rewrite Z.min_id, Z.sub_diag, !Z.mul_1_r. reflexivity.
  - rewrite Z.min_l, Z.sub_diag, Z.mul_1_r by lia.
    apply Z.compare_lt_iff.
    pose proof (pow2_ge_2 (e2 - e1)). nia.
  - rewrite Z.min_r, Z.sub_diag, Z.mul_1_r by lia.
    apply Z.compare_gt_iff.
    pose proof (pow2_ge_2 (e1 - e2)). nia.
Qed.

Lemma compare_opp (a b : Z) : (- a ?= - b) = CompOpp (a ?= b).
Proof. rewrite Z.compare_opp. apply Z.compare_antisym. Qed.

Lemma Qcompare_zero_l (a : Z) (e : Z) : (0 ?= inject_Z a * 2 ^ e)%Q = (0 ?= a).
Proof.
  assert (H : (0 == inject_Z 0 * 2 ^ e)%Q) by (simpl (inject_Z 0); ring).
  rewrite H at 1. rewrite Qcompare_mult_pos_r by apply two_power_pos.
  apply Qcompare_inject_Z.
Qed.

Lemma Qcompare_zero_r (a : Z) (e : Z) : (inject_Z a * 2 ^ e ?= 0)%Q = (a ?= 0).
Proof.
  rewrite <- Qcompare_antisym, Qcompare_zero_l. symmetry. apply Z.compare_antisym.
Qed.

(** On binary64 numbers with a real value, the IEEE comparison is the
    comparison of the values. *)
Lemma compare_value (x y : float64) (p q : Q) :
  is_float64 x = true -> is_float64 y = true ->
  value x = Some p -> value y = Some q ->
  SFcompare x y = Some (p ?= q)%Q.
Proof.
  destruct x as [sx | sx | | sx mx ex]; try discriminate;
  destruct y as [sy | sy | | sy my ey]; try discriminate;
  simpl; intros Hx Hy Hp Hq; injection Hp as <-; injection Hq as <-; f_equal.
  - rewrite Qcompare_zero_l. now destruct sy.
  - rewrite Qcompare_zero_r. now destruct sx.
  - rewrite Qcompare_dyadic.
    assert (H1 : 0 < 2 ^ (ex - Z.min ex ey)) by (apply pow2_pos; lia).
    assert (H2 : 0 < 2 ^ (ey - Z.min ex ey)) by (apply pow2_pos; lia).
    destruct sx, sy; simpl cond_Zopp.
    + change (Z.neg mx) with (- Zpos mx). change (Z.neg my) with (- Zpos my).
      rewrite !Z.mul_opp_l, compare_opp, (magnitude_compare mx my ex ey Hx Hy).
      now destruct (ex ?= ey).
    + symmetry. apply Z.compare_lt_iff. nia.
    + symmetry. apply Z.compare_gt_iff. nia.
    + symmetry. apply (magnitude_compare mx my ex ey Hx Hy).
Qed.

Lemma has_value_inv (x : float64) (q : Q) :
  has_value x q -> exists v, value x = Some v /\ (v == q)%Q.
Proof.
  unfold has_value. destruct (value x) as [v|]; [|contradiction].
  intros Hv. now exists v.
Qed.

Lemma lt_value (x y : float64) (p q : Q) :
  is_float64 x = true -> is_float64 y = true ->
  has_value x p -> has_value y q ->
  lt x y = true <-> (p < q)%Q.
Proof.
  intros Vx Vy Hp Hq.
  destruct (has_value_inv _ _ Hp) as (v & Ev & Hv).
  destruct (has_value_inv _ _ Hq) as (w & Ew & Hw).
  unfold lt, SFltb. rewrite (compare_value x y v w Vx Vy Ev Ew), Hv, Hw.
  rewrite Qlt_alt. destruct (p ?= q)%Q; split; congruence.
Qed.

(** A test of the cascade, [x < c] with [c] one of its integer thresholds. *)
Lemma lt_threshold (x : float64) (q : Q) (c : Z) :
  is_float64 x = true -> has_value x q ->
  is_float64 (float_of_int c) = true -> has_value (float_of_int c) (inject_Z c) ->
  lt x (float_of_int c) = true <-> (q < inject_Z c)%Q.
Proof. intros Vx Hq Vc Hc. now apply lt_value. Qed.

Lemma threshold_5 : is_float64 (float_of_int 5) = true /\ has_value (float_of_int 5) 5.
Proof. split; vm_compute; reflexivity. Qed.

Lemma threshold_20 : is_float64 (float_of_int 20) = true /\ has_value (float_of_int 20) 20.
Proof. split; vm_compute; reflexivity. Qed.

Lemma threshold_40 : is_float64 (float_of_int 40) = true /\ has_value (float_of_int 40) 40.
Proof. split; vm_compute; reflexivity. Qed.

Lemma lt_5 (x : float64) (q : Q) :
  is_float64 x = true -> has_value x q ->
  lt x (float_of_int 5) = true <-> (q < 5)%Q.
Proof. intros Vx Hq. now apply (lt_threshold x q 5 Vx Hq); apply threshold_5. Qed.

Lemma lt_20 (x : float64) (q : Q) :
  is_float64 x = true -> has_value x q ->
  lt x (float_of_int 20) = true <-> (q < 20)%Q.
Proof. intros Vx Hq. now apply (lt_threshold x q 20 Vx Hq); apply threshold_20. Qed.

Lemma lt_40 (x : float64) (q : Q) :
  is_float64 x = true -> has_value x q ->
  lt x (float_of_int 40) = true <-> (q < 40)%Q.
Proof. intros Vx Hq. now apply (lt_threshold x q 40 Vx Hq); apply threshold_40. Qed.

(** A number of negative value has its sign bit set: it is below every
    positive number, whatever its mantissa and exponent. *)
Lemma negative_sign (x : float64) (q : Q) :
  has_value x q -> (q < 0)%Q -> exists m e, x = S754_finite true m e.
Proof.
  intros Hq Hneg. destruct (has_value_inv _ _ Hq) as (v & Ev & Hv).
  rewrite <- Hv in Hneg. clear Hq Hv.
  destruct x as [s | s | | s m e]; try discriminate; injection Ev as <-.
  - now apply Qlt_irrefl in Hneg.
  - rewrite Qlt_alt, Qcompare_zero_r in Hneg.
    destruct s; [now exists m, e | discriminate].
Qed.

End Float64Facts.

(** ** The cascade *)

Section Cascade.

Local Open Scope Q_scope.

Lemma test_reflect (b : bool) (P : Prop) : (b = true <-> P) -> if b then P else ~ P.
Proof. destruct b; intuition congruence. Qed.

(** The three tests of the cascade on a binary64 of value [q]. *)
Lemma tests_of_value (x : float64) (q : Q) :
  is_float64 x = true -> has_value x q ->
  (if lt x (float_of_int 5) then q < 5 else ~ q < 5) /\
  (if lt x (float_of_int 20) then q < 20 else ~ q < 20) /\
  (if lt x (float_of_int 40) then q < 40 else ~ q < 40).
Proof.
  intros Vx Hq. repeat split; apply test_reflect.
  - now apply lt_5.
  - now apply lt_20.
  - now apply lt_40.
Qed.

(** The cascade has four results. *)
Lemma classify_cases (x : float64) :
  (lt x (float_of_int 5) = true /\ tier (classify x) = Some MINIMAL) \/
  (lt x (float_of_int 5) = false /\ lt x (float_of_int 20) = true /\
   tier (classify x) = Some LIGHT) \/
  (lt x (float_of_int 5) = false /\ lt x (float_of_int 20) = false /\
   lt x (float_of_int 40) = true /\ tier (classify x) = Some MODERATE) \/
  (lt x (float_of_int 5) = false /\ lt x (float_of_int 20) = false /\
   lt x (float_of_int 40) = false /\ tier (classify x) = Some HEAVY).
Proof.
  unfold classify.
  destruct (lt x (float_of_int 5)); [now left | right].
  destruct (lt x (float_of_int 20)); [now left | right].
  destruct (lt x (float_of_int 40)); [now left | now right].
Qed.

Lemma classify_has_tier (x : float64) :
  exists t, tier (classify x) = Some t /\ In t all_tiers.
Proof.
  destruct (classify_cases x) as [H | [H | [H | H]]].
  - exists MINIMAL. split; [apply H | simpl; tauto].
  - exists LIGHT. split; [apply H | simpl; tauto].
  - exists MODERATE. split; [apply H | simpl; tauto].
  - exists HEAVY. split; [apply H | simpl; tauto].
Qed.

(** [==] on floats is finer than the cascade: equal numbers, [0.0] and
    [-0.0] among them, get one advisory. *)
Lemma eqb_classify (a b : float64) : eqb a b = true -> classify a = classify b.
Proof.
  unfold eqb, SFeqb.
  destruct a as [sa | sa | | sa ma ea], b as [sb | sb | | sb mb eb];
    simpl; try discriminate;
    try (destruct sa); try (destruct sb); try discriminate;
    try (intros _; reflexivity);
    destruct (Z.compare_spec ea eb) as [-> | _ | _]; try discriminate;
    rewrite Pos.compare_cont_spec; simpl;
    destruct (Pos.compare_spec ma mb) as [-> | _ | _]; try discriminate;
    reflexivity.
Qed.

End Cascade.

(** ** Positional indexing *)

Lemma iloc_last {A : Type} (rows : list A) (p r : A) :
  iloc (rows ++ [p; r]) (-1) = Returned r.
Proof.
  unfold iloc. rewrite length_app. simpl List.length.
  change (-1 <? 0)%Z with true. cbv iota.
  replace ((Z.of_nat (List.length rows + 2) + -1 <? 0)%Z) with false
    by (symmetry; apply Z.ltb_ge; lia).
  replace ((Z.of_nat (List.length rows + 2) <=?
            Z.of_nat (List.length rows + 2) + -1)%Z) with false
    by (symmetry; apply Z.leb_gt; lia).
  simpl orb. cbv iota.
  replace (Z.to_nat (Z.of_nat (List.length rows + 2) + -1))
    with (List.length rows + 1)%nat by lia.
  rewrite nth_error_app2 by lia.
  replace (List.length rows + 1 - List.length rows)%nat with 1%nat by lia.
  reflexivity.
Qed.

Lemma iloc_before_last {A : Type} (rows : list A) (p r : A) :
  iloc (rows ++ [p; r]) (-2) = Returned p.
Proof.
  unfold iloc. rewrite length_app. simpl List.length.
  change (-2 <? 0)%Z with true. cbv iota.
  replace ((Z.of_nat (List.length rows + 2) + -2 <? 0)%Z) with false
    by (symmetry; apply Z.ltb_ge; lia).
  replace ((Z.of_nat (List.length rows + 2) <=?
            Z.of_nat (List.length rows + 2) + -2)%Z) with false
    by (symmetry; apply Z.leb_gt; lia).
  simpl orb. cbv iota.
  replace (Z.to_nat (Z.of_nat (List.length rows + 2) + -2))
    with (List.length rows + 0)%nat by lia.
  rewrite nth_error_app2 by lia.
  replace (List.length rows + 0 - List.length rows)%nat with 0%nat by lia.
  reflexivity.
Qed.

Lemma iloc_last_row {A : Type} (rows : list A) (r : A) :
  iloc (rows ++ [r]) (-1) = Returned r.
Proof.
  destruct rows as [|a rows] using rev_ind; [reflexivity|].
  rewrite <- app_assoc. apply iloc_last.
Qed.

(** [iloc] raises nothing but IndexError. *)
Lemma iloc_raises {A : Type} (rows : list A) (i : Z) (e : string) :
  iloc rows i = Raised e -> e = "IndexError".
Proof.
  unfold iloc.
  destruct (_ || _)%bool; [now intros [= <-]|].
  destruct (nth_error _ _); [discriminate | now intros [= <-]].
Qed.

(** With two rows or more and a date on the last, the page reaches the
    cascade, on its last row. *)
Lemma dashboard_page_last (rows : list (IndexEntry * WeeklyRecord))
    (p : IndexEntry * WeeklyRecord) (year : Z) (month day : nat) (r : WeeklyRecord) :
  dashboard_page (rows ++ [p; (Timestamp year month day, r)]) =
  Returned (classify (Irrigation_needed_mm r)).
Proof.
  unfold dashboard_page. rewrite !map_app. simpl map.
  rewrite !iloc_last, iloc_before_last. reflexivity.
Qed.

(** When the page returns, it returns the advisory of its last row, and the
    last entry of the index is a date. *)
Lemma dashboard_page_returned (older : list (IndexEntry * WeeklyRecord))
    (d : IndexEntry) (r : WeeklyRecord) (a : Advisory) :
  dashboard_page (older ++ [(d, r)]) = Returned a ->
  a = recommend r /\ exists year month day, d = Timestamp year month day.
Proof.
  unfold dashboard_page. rewrite !map_app. simpl map. rewrite !iloc_last_row.
  simpl bind. destruct d as [year month day | | text]; simpl; try discriminate.
  destruct (iloc _ (-2)); simpl; [|discriminate].
  intros [= <-]. split; [reflexivity | now exists year, month, day].
Qed.

(** Without rows the page stops at the first read. *)
Example dashboard_page_empty : dashboard_page [] = Raised "IndexError".
Proof. reflexivity. Qed.

(** With one row it stops at the date when it is not one, else at the read
    of the row before. *)
Example dashboard_page_one_row (d : IndexEntry) (r : WeeklyRecord) :
  dashboard_page [(d, r)] =
  match d with
  | Timestamp _ _ _ => Raised "IndexError"
  | NaT => Raised "ValueError"
  | NotADate _ => Raised "AttributeError"
  end.
Proof. destruct d; reflexivity. Qed.

Example strftime_date : strftime (Timestamp 2025 11 3) = Returned "Nov 03, 2025".
Proof. reflexivity. Qed.

(** * The properties of the classifier *)

Section Claims.

Local Open Scope Q_scope.

Ltac by_tests x q Vx Hq :=
  destruct (tests_of_value x q Vx Hq) as (?T5 & ?T20 & ?T40);
  unfold classify in *;
  destruct (lt x (float_of_int 5)), (lt x (float_of_int 20)),
           (lt x (float_of_int 40)).

(** C1. A binary64 input of real value [q >= 0] gets the tier and the advice
    of the half-open interval [q] lies in: [0,5) MINIMAL, [5,20) LIGHT,
    [20,40) MODERATE, [40,oo) HEAVY. *)
Theorem classify_decision_intervals (x : float64) (q : Q) :
  is_float64 x = true -> has_value x q ->
  (0 <= q /\ q < 5 ->
     tier (classify x) = Some MINIMAL /\
     advice (classify x) = "Recent rainfall is sufficient. Monitor crop condition."%string) /\
  (5 <= q /\ q < 20 ->
     tier (classify x) = Some LIGHT /\
     advice (classify x) = "Supplement rainfall with light irrigation."%string) /\
  (20 <= q /\ q < 40 ->
     tier (classify x) = Some MODERATE /\
     advice (classify x) = "Regular irrigation needed to maintain crop health."%string) /\
  (40 <= q ->
     tier (classify x) = Some HEAVY /\
     advice (classify x) = "Crop water stress likely. Irrigate immediately!"%string).
Proof.
  intros Vx Hq.
  by_tests x q Vx Hq; repeat split; intros; try reflexivity; exfalso; lra.
Qed.

Lemma classify_decision_intervals_witness :
  (tier (classify (float_of_int 3)) = Some MINIMAL /\
   advice (classify (float_of_int 3)) =
     "Recent rainfall is sufficient. Monitor crop condition."%string) /\
  (tier (classify (float_of_decimal 125 1)) = Some LIGHT /\
   advice (classify (float_of_decimal 125 1)) =
     "Supplement rainfall with light irrigation."%string) /\
  (tier (classify (float_of_decimal 355 1)) = Some MODERATE /\
   advice (classify (float_of_decimal 355 1)) =
     "Regular irrigation needed to maintain crop health."%string) /\
  (tier (classify (float_of_int 64)) = Some HEAVY /\
   advice (classify (float_of_int 64)) =
     "Crop water stress likely. Irrigate immediately!"%string).
Proof.
  split; [|split; [|split]].
  - apply (classify_decision_intervals (float_of_int 3) 3);
      [reflexivity | vm_compute; reflexivity | split; vm_compute; congruence].
  - apply (classify_decision_intervals (float_of_decimal 125 1) (25 # 2));
      [reflexivity | vm_compute; reflexivity | split; vm_compute; congruence].
  - apply (classify_decision_intervals (float_of_decimal 355 1) (71 # 2));
      [reflexivity | vm_compute; reflexivity | split; vm_compute; congruence].
  - apply (classify_decision_intervals (float_of_int 64) 64);
      [reflexivity | vm_compute; reflexivity | vm_compute; congruence].
Defined.

(** C2. Each threshold belongs to the upper tier: 5.0 is LIGHT, 20.0 is
    MODERATE and 40.0 is HEAVY, while 4.999 is MINIMAL, 19.999 is LIGHT and
    39.999 is MODERATE. *)
Theorem classify_boundaries :
  tier (classify (float_of_int 5)) = Some LIGHT /\
  tier (classify (float_of_int 20)) = Some MODERATE /\
  tier (classify (float_of_int 40)) = Some HEAVY /\
  tier (classify (float_of_decimal 4999 3)) = Some MINIMAL /\
  tier (classify (float_of_decimal 19999 3)) = Some LIGHT /\
  tier (classify (float_of_decimal 39999 3)) = Some MODERATE.
Proof. repeat split; vm_compute; reflexivity. Qed.

(** C3, as the specification states it, fails: on -1 the cascade returns an
    advisory, it does not fail with InvalidInput. *)
Lemma classify_minus_one_not_rejected :
  classify_outcome (float_of_int (-1)) =
    Returned {| recommendation := "MINIMAL irrigation needed";
                color := "#4CAF50";
                advice := "Recent rainfall is sufficient. Monitor crop condition." |} /\
  classify_outcome (float_of_int (-1)) <> Raised "InvalidInput".
Proof. split; [reflexivity | discriminate]. Qed.

(** C3, amended. The cascade has no rejection: on every input, negative,
    infinite and NaN included, it returns an advisory of one of the four
    tiers, and the page never fails with InvalidInput; -1 is classified
    MINIMAL and NaN is classified HEAVY. *)
Theorem classify_never_rejects :
  (forall x : float64,
     exists r t, classify_outcome x = Returned r /\ tier r = Some t /\ In t all_tiers) /\
  (forall weekly_schedule, dashboard_page weekly_schedule <> Raised "InvalidInput") /\
  (exists r, classify_outcome (float_of_int (-1)) = Returned r /\ tier r = Some MINIMAL) /\
  (exists r, classify_outcome nan = Returned r /\ tier r = Some HEAVY).
Proof.
  repeat split.
  - intros x. destruct (classify_has_tier x) as (t & Ht & Hin).
    exists (classify x), t. repeat split; assumption.
  - intros ws. unfold dashboard_page.
    destruct (iloc (map snd ws) (-1)) as [latest | e1] eqn:E1; simpl;
      [|apply iloc_raises in E1; subst e1; discriminate].
    destruct (iloc (map fst ws) (-1)) as [week_date | e2] eqn:E2; simpl;
      [|apply iloc_raises in E2; subst e2; discriminate].
    destruct week_date; simpl; try discriminate.
    destruct (iloc (map snd ws) (-2)) as [previous | e3] eqn:E3; simpl;
      [discriminate | apply iloc_raises in E3; subst e3; discriminate].
  - eexists. split; reflexivity.
  - eexists. split; reflexivity.
Qed.

(** The tier does not decrease with the value, on the whole real line. *)
Lemma classify_monotone_values (a b : float64) (p q : Q) :
  is_float64 a = true -> is_float64 b = true ->
  has_value a p -> has_value b q -> p <= q ->
  exists ta tb,
    tier (classify a) = Some ta /\ tier (classify b) = Some tb /\
    (severity_rank ta <= severity_rank tb)%nat.
Proof.
  intros Va Vb Ha Hb Hle.
  by_tests a p Va Ha; by_tests b q Vb Hb;
    try (exfalso; lra);
    eexists; eexists; (split; [reflexivity | split; [reflexivity | simpl; lia]]).
Qed.

(** C4. For binary64 inputs of real values [0 <= p <= q], the severity rank
    of the tier of the first is at most that of the second. *)
Theorem classify_monotonic (a b : float64) (p q : Q) :
  is_float64 a = true -> is_float64 b = true ->
  has_value a p -> has_value b q ->
  0 <= p -> p <= q ->
  exists ta tb,
    tier (classify a) = Some ta /\ tier (classify b) = Some tb /\
    (severity_rank ta <= severity_rank tb)%nat.
Proof.
  intros Va Vb Ha Hb _ Hle. now apply (classify_monotone_values a b p q).
Qed.

Lemma classify_monotonic_witness :
  exists ta tb,
    tier (classify (float_of_decimal 4999 3)) = Some ta /\
    tier (classify (float_of_decimal 355 1)) = Some tb /\
    (severity_rank ta <= severity_rank tb)%nat.
Proof.
  apply (classify_monotonic (float_of_decimal 4999 3) (float_of_decimal 355 1)
           (5628373634306277 # 1125899906842624) (71 # 2));
    try reflexivity; vm_compute; try reflexivity; congruence.
Defined.

(** C5. On a binary64 input of real value [q >= 0] the cascade returns
    exactly one tier, one of MINIMAL, LIGHT, MODERATE and HEAVY. *)
Theorem classify_total (x : float64) (q : Q) :
  has_value x q -> 0 <= q ->
  exists t,
    tier (classify x) = Some t /\ In t all_tiers /\
    (forall t', tier (classify x) = Some t' -> t' = t).
Proof.
  intros _ _. destruct (classify_has_tier x) as (t & Ht & Hin).
  exists t. repeat split; try assumption.
  intros t' Ht'. congruence.
Qed.

Lemma classify_total_witness :
  exists t,
    tier (classify (float_of_decimal 355 1)) = Some t /\ In t all_tiers /\
    (forall t', tier (classify (float_of_decimal 355 1)) = Some t' -> t' = t).
Proof.
  apply (classify_total (float_of_decimal 355 1) (71 # 2));
    vm_compute; [reflexivity | congruence].
Defined.

(** C6. The advisory depends on [Irrigation_needed_mm] alone: two rows with
    the same number there (the same float, or two floats Python's [==]
    equates) get the same recommendation, color and advice, whatever the
    other columns hold; and two runs of the page that show an advisory for
    such last rows show the same one, whatever the dates and the rows
    before them. *)
Theorem advisory_depends_on_irrigation_needed_only
    (older1 older2 : list (IndexEntry * WeeklyRecord))
    (d1 d2 : IndexEntry) (r1 r2 : WeeklyRecord) :
  Irrigation_needed_mm r1 = Irrigation_needed_mm r2 \/
  eqb (Irrigation_needed_mm r1) (Irrigation_needed_mm r2) = true ->
  recommend r1 = recommend r2 /\
  (forall a1 a2 : Advisory,
     dashboard_page (older1 ++ [(d1, r1)]) = Returned a1 ->
     dashboard_page (older2 ++ [(d2, r2)]) = Returned a2 ->
     a1 = a2).
Proof.
  intros Hsame.
  assert (Hc : classify (Irrigation_needed_mm r1) = classify (Irrigation_needed_mm r2)).
  { destruct Hsame as [-> | Heq]; [reflexivity | now apply eqb_classify]. }
  split; [exact Hc|]. intros a1 a2 H1 H2.
  apply dashboard_page_returned in H1. apply dashboard_page_returned in H2.
  destruct H1 as [-> _], H2 as [-> _]. exact Hc.
Qed.

Lemma advisory_depends_on_irrigation_needed_only_witness :
  let r1 := {| ETc_week_mm := float_of_int 30; Rainfall_week_mm := float_of_int 12;
               Rainfall_effective_mm := float_of_int 9;
               Irrigation_needed_mm := float_of_int 0 |} in
  let r2 := {| ETc_week_mm := float_of_int 2; Rainfall_week_mm := nan;
               Rainfall_effective_mm := pos_infinity;
               Irrigation_needed_mm := neg_zero |} in
  (recommend r1 = recommend r2 /\
   (forall a1 a2 : Advisory,
      dashboard_page ([(NaT, r2); (Timestamp 2024 12 22, r2)] ++
                      [(Timestamp 2024 12 29, r1)]) = Returned a1 ->
      dashboard_page ([(Timestamp 2025 11 2, r1)] ++
                      [(Timestamp 2025 11 9, r2)]) = Returned a2 ->
      a1 = a2)) /\
  dashboard_page ([(NaT, r2); (Timestamp 2024 12 22, r2)] ++
                  [(Timestamp 2024 12 29, r1)]) = Returned (recommend r1) /\
  dashboard_page ([(Timestamp 2025 11 2, r1)] ++
                  [(Timestamp 2025 11 9, r2)]) = Returned (recommend r2).
Proof.
  intros r1 r2. split; [|split; reflexivity].
  apply (advisory_depends_on_irrigation_needed_only
           [(NaT, r2); (Timestamp 2024 12 22, r2)] [(Timestamp 2025 11 2, r1)]
           (Timestamp 2024 12 29) (Timestamp 2025 11 9) r1 r2).
  right. reflexivity.
Defined.

(** C7. Color and advice are one-to-one functions of the tier: two results
    of the cascade with one tier carry one color and one advice, two results
    with one color, or with one advice, have one tier, and each of the four
    tiers is the tier of some result. *)
Theorem color_and_advice_one_to_one_with_tier :
  (forall x y : float64,
     tier (classify x) = tier (classify y) ->
     color (classify x) = color (classify y) /\
     advice (classify x) = advice (classify y)) /\
  (forall x y : float64,
     color (classify x) = color (classify y) ->
     tier (classify x) = tier (classify y)) /\
  (forall x y : float64,
     advice (classify x) = advice (classify y) ->
     tier (classify x) = tier (classify y)) /\
  (forall t : Tier, exists x : float64, tier (classify x) = Some t).
Proof.
  split; [|split; [|split]];
    try (intros x y; unfold classify;
         destruct (lt x (float_of_int 5)), (lt x (float_of_int 20)),
                  (lt x (float_of_int 40)), (lt y (float_of_int 5)),
                  (lt y (float_of_int 20)), (lt y (float_of_int 40));
         simpl; intros H; solve [split; reflexivity | reflexivity | discriminate H]).
  intros [ | | | ].
  - exists (float_of_int 0). reflexivity.
  - exists (float_of_int 5). reflexivity.
  - exists (float_of_int 20). reflexivity.
  - exists (float_of_int 40). reflexivity.
Qed.

(** C8. The literal scenarios: 0.0 is MINIMAL with its advice, 35.5 is
    MODERATE and 100.0 is HEAVY. *)
Theorem classify_scenarios :
  tier (classify (float_of_int 0)) = Some MINIMAL /\
  advice (classify (float_of_int 0)) =
    "Recent rainfall is sufficient. Monitor crop condition."%string /\
  tier (classify (float_of_decimal 355 1)) = Some MODERATE /\
  tier (classify (float_of_int 100)) = Some HEAVY.
Proof. repeat split; vm_compute; reflexivity. Qed.

(** C9. A strictly negative input, minus infinity included, passes the first
    test: the cascade returns the MINIMAL advisory and raises nothing. *)
Theorem negative_input_is_minimal (x : float64) :
  x = neg_infinity \/ (exists q, has_value x q /\ q < 0) ->
  classify_outcome x =
    Returned {| recommendation := "MINIMAL irrigation needed";
                color := "#4CAF50";
                advice := "Recent rainfall is sufficient. Monitor crop condition." |} /\
  tier (classify x) = Some MINIMAL.
Proof.
  intros [-> | (q & Hq & Hneg)]; [split; reflexivity|].
  destruct (negative_sign x q Hq Hneg) as (m & e & ->). split; reflexivity.
Qed.

Lemma negative_input_is_minimal_witness :
  classify_outcome (float_of_decimal (-25) 1) =
    Returned {| recommendation := "MINIMAL irrigation needed";
                color := "#4CAF50";
                advice := "Recent rainfall is sufficient. Monitor crop condition." |} /\
  tier (classify (float_of_decimal (-25) 1)) = Some MINIMAL.
Proof.
  apply (negative_input_is_minimal (float_of_decimal (-25) 1)).
  right. exists (-5 # 2). split; vm_compute; reflexivity.
Defined.

(** C10. On NaN each [<] of the cascade is false: it falls through to the
    last branch and returns the HEAVY advisory, raising nothing. *)
Theorem nan_input_is_heavy :
  lt nan (float_of_int 5) = false /\
  lt nan (float_of_int 20) = false /\
  lt nan (float_of_int 40) = false /\
  classify_outcome nan =
    Returned {| recommendation := "HEAVY irrigation required";
                color := "#F44336";
                advice := "Crop water stress likely. Irrigate immediately!" |} /\
  tier (classify nan) = Some HEAVY.
Proof. repeat split. Qed.

End Claims.

(** * The rest of the page "Dashboard" *)

(** ** Rounding for display *)

Section Rounding.

Local Open Scope Z_scope.

(** The rounded integer is within half a unit of the quotient. *)
Lemma round_half_even_bound (num den : Z) :
  0 <= num -> 0 < den ->
  0 <= Format.round_half_even num den /\
  - den <= 2 * (Format.round_half_even num den * den - num) <= den.
Proof.
  intros Hnum Hden. unfold Format.round_half_even.
  pose proof (Z.div_mod num den) as Hdm.
  pose proof (Z.mod_pos_bound num den Hden) as Hr.
  pose proof (Z.div_pos num den Hnum Hden) as Hq.
  specialize (Hdm ltac:(lia)).
  destruct (Z.compare_spec (2 * (num mod den)) den) as [He | Hl | Hg].
  - destruct (Z.even (num / den)); split; nia.
  - split; nia.
  - split; nia.
Qed.

Lemma pow10_pos (k : nat) : 0 < 10 ^ Z.of_nat k.
Proof. apply Z.pow_pos_nonneg; lia. Qed.

Lemma round_magnitude_nonneg (k : nat) (m : positive) (e : Z) :
  0 <= Format.round_magnitude k m e.
Proof.
  unfold Format.round_magnitude. pose proof (pow10_pos k).
  destruct (Z.leb_spec 0 e) as [He | He].
  - pose proof (pow2_pos e He). nia.
  - apply round_half_even_bound; [nia | apply pow2_pos; lia].
Qed.

(** What [round_magnitude k m e] rounds: [m * 2^e * 10^k]. *)
Lemma round_magnitude_bound (k : nat) (m : positive) (e : Z) :
  (Qabs (inject_Z (Format.round_magnitude k m e)
         - inject_Z (Zpos m) * 2 ^ e * inject_Z (10 ^ Z.of_nat k)) <= 1 # 2)%Q.
Proof.
  unfold Format.round_magnitude. pose proof (pow10_pos k) as H10.
  set (t := 10 ^ Z.of_nat k) in *.
  destruct (Z.leb_spec 0 e) as [He | He].
  - rewrite <- (Zpower_Qpower 2 e He). change (inject_Z 2) with 2%Q.
    rewrite !inject_Z_mult.
    setoid_replace (inject_Z (Z.pos m) * inject_Z (2 ^ e) * inject_Z t
                    - inject_Z (Z.pos m) * inject_Z (2 ^ e) * inject_Z t)%Q
      with 0%Q by ring.
    discriminate.
  - set (d := 2 ^ (- e)).
    assert (Hd : 0 < d) by (apply pow2_pos; lia).
    destruct (round_half_even_bound (Z.pos m * t) d ltac:(nia) Hd) as [_ Hb].
    set (n := Format.round_half_even (Z.pos m * t) d) in *.
    assert (E : (2 ^ e == / inject_Z d)%Q).
    { replace e with (- - e) at 1 by lia. rewrite Qpower_opp.
      unfold d. rewrite (Zpower_Qpower 2 (- e)) by lia. reflexivity. }
    rewrite E.
    assert (Hdq : (0 < inject_Z d)%Q) by (change 0%Q with (inject_Z 0); rewrite <- Zlt_Qlt; exact Hd).
    apply Qabs_Qle_condition.
    assert (Hlo : (inject_Z (- d) <= inject_Z (2 * (n * d - Z.pos m * t)))%Q)
      by (rewrite <- Zle_Qle; lia).
    assert (Hhi : (inject_Z (2 * (n * d - Z.pos m * t)) <= inject_Z d)%Q)
      by (rewrite <- Zle_Qle; lia).
    rewrite inject_Z_mult, inject_Z_opp in Hlo.
    rewrite inject_Z_mult in Hhi.
    unfold Z.sub in Hlo, Hhi.
    rewrite inject_Z_plus, inject_Z_opp, !inject_Z_mult in Hlo, Hhi.
    change (inject_Z 2) with 2%Q in *.
    set (N := inject_Z n) in *. set (D := inject_Z d) in *.
    set (M := inject_Z (Z.pos m)) in *. set (T := inject_Z t) in *.
    assert (Hinv : (D * / D == 1)%Q) by (apply Qmult_inv_r; lra).
    assert (Hpos : (0 < / D)%Q) by (apply Qinv_lt_0_compat; exact Hdq).
    split.
    + apply Qmult_le_r with (z := D); [exact Hdq|].
      setoid_replace ((N - M * / D * T) * D)%Q with (N * D - M * T * (D * / D))%Q by ring.
      rewrite Hinv. lra.
    + apply Qmult_le_r with (z := D); [exact Hdq|].
      setoid_replace ((N - M * / D * T) * D)%Q with (N * D - M * T * (D * / D))%Q by ring.
      rewrite Hinv. lra.
Qed.

End Rounding.

(** ** The digits shown *)

Section Digits.

Lemma to_uint_nonnil (n : N) : N.to_uint n <> Decimal.Nil.
Proof.
  destruct n as [|p]; [discriminate | apply DecimalPos.Unsigned.to_uint_nonnil].
Qed.

(** The digits of a natural number read back as that number, and as its
    opposite after a minus sign. *)
Lemma parse_int_digits (s : bool) (n : Z) :
  (0 <= n)%Z ->
  Format.parse_int (Format.sign s ++ Format.digits n) = Some (cond_Zopp s n).
Proof.
  intros Hn. unfold Format.parse_int, Format.digits.
  set (d := N.to_uint (Z.to_N n)).
  assert (Hd : d <> Decimal.Nil) by apply to_uint_nonnil.
  assert (Hv : Z.of_uint d = n).
  { unfold Z.of_uint, d. change (Pos.of_uint (N.to_uint (Z.to_N n)))
      with (N.of_uint (N.to_uint (Z.to_N n))).
    rewrite DecimalN.Unsigned.of_to. now apply Z2N.id. }
  assert (Hs : NilEmpty.string_of_uint d = NilZero.string_of_uint d)
    by (destruct d; [contradiction | reflexivity ..]).
  destruct s; simpl Format.sign; simpl append; rewrite Hs.
  - change (String "-" (NilZero.string_of_uint d))
      with (NilZero.string_of_int (Decimal.Neg d)).
    rewrite NilZero.isi by congruence. simpl. now rewrite Hv.
  - change (NilZero.string_of_uint d) with (NilZero.string_of_int (Decimal.Pos d)).
    rewrite NilZero.isi by congruence. simpl. now rewrite Hv.
Qed.

End Digits.

Section Display.

Local Open Scope Q_scope.

(** A finite float is shown as a sign and a natural number of units of
    [10^-k], within half a unit of its value. *)
Lemma format_f_rounds (k : nat) (x : float64) (q : Q) :
  has_value x q ->
  exists (s : bool) (n : Z),
    (0 <= n)%Z /\
    Format.format_f k x = (Format.sign s ++ Format.fixed k n)%string /\
    inject_Z (cond_Zopp s n) - (1 # 2) <= q * inject_Z (10 ^ Z.of_nat k) /\
    q * inject_Z (10 ^ Z.of_nat k) <= inject_Z (cond_Zopp s n) + (1 # 2).
Proof.
  intros Hq. destruct (has_value_inv _ _ Hq) as (v & Ev & Hv).
  assert (HT : 0 < inject_Z (10 ^ Z.of_nat k)).
  { change 0 with (inject_Z 0). rewrite <- Zlt_Qlt. apply pow10_pos. }
  destruct x as [s | s | | s m e]; try discriminate; injection Ev as <-.
  - exists s, 0%Z. split; [lia|]. split; [reflexivity|].
    rewrite <- Hv. destruct s; simpl cond_Zopp; change (inject_Z 0) with 0; lra.
  - exists s, (Format.round_magnitude k m e).
    split; [apply round_magnitude_nonneg|]. split; [reflexivity|].
    pose proof (round_magnitude_bound k m e) as Hb.
    apply Qabs_Qle_condition in Hb. rewrite <- Hv.
    set (n := Format.round_magnitude k m e) in *.
    destruct s; simpl cond_Zopp.
    + change (Z.neg m) with (- Z.pos m)%Z. rewrite !inject_Z_opp. lra.
    + lra.
Qed.

End Display.

Section Panel.

Local Open Scope Q_scope.

(** X1. The amount of the line "Apply:" is a decimal integer, the nearest to
    the irrigation need: it is within half a millimetre of it. *)
Theorem apply_amount_nearest (latest_week : WeeklyRecord) (q : Q) :
  has_value (Irrigation_needed_mm latest_week) q ->
  exists n : Z,
    Format.parse_int (apply_amount latest_week) = Some n /\
    q - (1 # 2) <= inject_Z n /\ inject_Z n <= q + (1 # 2).
Proof.
  intros Hq. unfold apply_amount.
  destruct (format_f_rounds 0 _ q Hq) as (s & n & Hn & -> & Hlo & Hhi).
  exists (cond_Zopp s n). split; [now apply parse_int_digits|].
  simpl (10 ^ Z.of_nat 0)%Z in Hlo, Hhi. change (inject_Z 1) with 1 in Hlo, Hhi.
  lra.
Qed.

Lemma apply_amount_nearest_witness :
  exists n : Z,
    Format.parse_int
      (apply_amount {| ETc_week_mm := float_of_int 30;
                       Rainfall_week_mm := float_of_int 12;
                       Rainfall_effective_mm := float_of_int 9;
                       Irrigation_needed_mm := float_of_decimal 355 1 |}) = Some n /\
    (71 # 2) - (1 # 2) <= inject_Z n /\ inject_Z n <= (71 # 2) + (1 # 2).
Proof.
  apply (apply_amount_nearest _ (71 # 2)). vm_compute. reflexivity.
Defined.

(** X2. The amount of the line "Apply:" lies in the closed interval of the
    tier of the heading above it: at most 5 under MINIMAL, from 5 to 20
    under LIGHT, from 20 to 40 under MODERATE, at least 40 under HEAVY. *)
Theorem apply_amount_within_tier (latest_week : WeeklyRecord) (q : Q) :
  is_float64 (Irrigation_needed_mm latest_week) = true ->
  has_value (Irrigation_needed_mm latest_week) q ->
  exists (n : Z) (t : Tier),
    Format.parse_int (apply_amount latest_week) = Some n /\
    tier (recommend latest_week) = Some t /\
    match t with
    | MINIMAL => (n <= 5)%Z
    | LIGHT => (5 <= n <= 20)%Z
    | MODERATE => (20 <= n <= 40)%Z
    | HEAVY => (40 <= n)%Z
    end.
Proof.
  intros Vx Hq. unfold apply_amount, recommend.
  set (x := Irrigation_needed_mm latest_week) in *.
  destruct (format_f_rounds 0 x q Hq) as (s & n & Hn & -> & Hlo & Hhi).
  simpl (10 ^ Z.of_nat 0)%Z in Hlo, Hhi. change (inject_Z 1) with 1 in Hlo, Hhi.
  exists (cond_Zopp s n).
  set (z := cond_Zopp s n) in *.
  assert (Hup : forall c : Z, q < inject_Z c -> (z <= c)%Z).
  { intros c Hc. apply Z.lt_succ_r. rewrite Zlt_Qlt.
    unfold Z.succ. rewrite inject_Z_plus. change (inject_Z 1) with 1. lra. }
  assert (Hdown : forall c : Z, ~ q < inject_Z c -> (c <= z)%Z).
  { intros c Hc. apply Z.lt_pred_le. rewrite Zlt_Qlt.
    unfold Z.pred. rewrite inject_Z_plus. change (inject_Z (-1)) with (-1). lra. }
  destruct (tests_of_value x q Vx Hq) as (T5 & T20 & T40).
  unfold classify.
  destruct (lt x (float_of_int 5)), (lt x (float_of_int 20)), (lt x (float_of_int 40));
    [exists MINIMAL | exists MINIMAL | exists MINIMAL | exists MINIMAL
     | exists LIGHT | exists LIGHT | exists MODERATE | exists HEAVY];
    (split; [now apply parse_int_digits | split; [reflexivity|]]);
    pose proof (Hup 5%Z); pose proof (Hup 20%Z); pose proof (Hup 40%Z);
    pose proof (Hdown 5%Z); pose proof (Hdown 20%Z); pose proof (Hdown 40%Z);
    change (inject_Z 5) with 5 in *; change (inject_Z 20) with 20 in *;
    change (inject_Z 40) with 40 in *; intuition lia.
Qed.

Lemma apply_amount_within_tier_witness :
  exists (n : Z) (t : Tier),
    Format.parse_int
      (apply_amount {| ETc_week_mm := float_of_int 30;
                       Rainfall_week_mm := float_of_int 12;
                       Rainfall_effective_mm := float_of_int 9;
                       Irrigation_needed_mm := float_of_decimal 46 1 |}) = Some n /\
    tier (recommend {| ETc_week_mm := float_of_int 30;
                       Rainfall_week_mm := float_of_int 12;
                       Rainfall_effective_mm := float_of_int 9;
                       Irrigation_needed_mm := float_of_decimal 46 1 |}) = Some t /\
    match t with
    | MINIMAL => (n <= 5)%Z
    | LIGHT => (5 <= n <= 20)%Z
    | MODERATE => (20 <= n <= 40)%Z
    | HEAVY => (40 <= n)%Z
    end.
Proof.
  apply (apply_amount_within_tier _ (5179139571476070 # 1125899906842624)).
  - reflexivity.
  - vm_compute. reflexivity.
Defined.

(** The heading and the amount can sit on the two sides of a threshold:
    4.6 mm is MINIMAL, "below 5", and the panel says to apply 5 mm. *)
Example apply_amount_4_6 :
  let week := {| ETc_week_mm := float_of_int 30; Rainfall_week_mm := float_of_int 12;
                 Rainfall_effective_mm := float_of_int 9;
                 Irrigation_needed_mm := float_of_decimal 46 1 |} in
  tier (recommend week) = Some MINIMAL /\ apply_amount week = "5"%string.
Proof. split; vm_compute; reflexivity. Qed.

End Panel.

Section Metrics.

Local Open Scope Q_scope.

Lemma fixed_1 (n : Z) :
  (0 <= n)%Z ->
  Format.fixed 1 n =
  (Format.digits (n / 10) ++ "." ++ Format.digits (n mod 10))%string.
Proof.
  intros Hn. unfold Format.fixed. change (10 ^ Z.of_nat 1)%Z with 10%Z.
  pose proof (Z.mod_pos_bound n 10 ltac:(lia)) as Hr.
  assert (Hlen : String.length (Format.digits (n mod 10)) = 1%nat).
  { assert (Hc : (n mod 10 = 0 \/ n mod 10 = 1 \/ n mod 10 = 2 \/ n mod 10 = 3 \/
                  n mod 10 = 4 \/ n mod 10 = 5 \/ n mod 10 = 6 \/ n mod 10 = 7 \/
                  n mod 10 = 8 \/ n mod 10 = 9)%Z) by lia.
    repeat (destruct Hc as [-> | Hc]; [reflexivity|]). now rewrite Hc. }
  rewrite Hlen. reflexivity.
Qed.

(** X3. The metrics show a finite value with one decimal: a sign, the
    digits of [n / 10], a point and the digit [n mod 10], where the signed
    [n] tenths are within half a tenth of the value. *)
Theorem format_1f_one_decimal (x : float64) (q : Q) :
  has_value x q ->
  exists (s : bool) (n : Z),
    (0 <= n)%Z /\
    Format.format_f 1 x =
      (Format.sign s ++ Format.digits (n / 10) ++ "." ++
       Format.digits (n mod 10))%string /\
    inject_Z (cond_Zopp s n) - (1 # 2) <= q * 10 /\
    q * 10 <= inject_Z (cond_Zopp s n) + (1 # 2).
Proof.
  intros Hq.
  destruct (format_f_rounds 1 x q Hq) as (s & n & Hn & -> & Hlo & Hhi).
  exists s, n. rewrite (fixed_1 n Hn). repeat split; assumption.
Qed.

Lemma format_1f_one_decimal_witness :
  exists (s : bool) (n : Z),
    (0 <= n)%Z /\
    Format.format_f 1 (float_of_decimal (-4999) 3) =
      (Format.sign s ++ Format.digits (n / 10) ++ "." ++
       Format.digits (n mod 10))%string /\
    inject_Z (cond_Zopp s n) - (1 # 2) <= (-5628373634306277 # 1125899906842624) * 10 /\
    (-5628373634306277 # 1125899906842624) * 10 <= inject_Z (cond_Zopp s n) + (1 # 2).
Proof.
  apply (format_1f_one_decimal (float_of_decimal (-4999) 3)).
  vm_compute. reflexivity.
Defined.

(** X4. When the need is the same finite number as the week before, the
    delta of the metric "Irrigation Needed" reads "0.0 mm". *)
Theorem irrigation_delta_unchanged (latest_week previous_week : WeeklyRecord) (q : Q) :
  has_value (Irrigation_needed_mm latest_week) q ->
  Irrigation_needed_mm previous_week = Irrigation_needed_mm latest_week ->
  Metric.delta (irrigation_needed_metric latest_week previous_week) =
    Some "0.0 mm"%string.
Proof.
  intros Hq Heq. unfold irrigation_needed_metric, Metric.delta. rewrite Heq.
  destruct (has_value_inv _ _ Hq) as (v & Ev & _).
  destruct (Irrigation_needed_mm latest_week) as [s | s | | s m e];
    try discriminate.
  - destruct s; reflexivity.
  - unfold SFsub. rewrite Z.sub_diag. reflexivity.
Qed.

Lemma irrigation_delta_unchanged_witness :
  let week := {| ETc_week_mm := float_of_int 30; Rainfall_week_mm := float_of_int 12;
                 Rainfall_effective_mm := float_of_int 9;
                 Irrigation_needed_mm := float_of_decimal 355 1 |} in
  Metric.delta (irrigation_needed_metric week week) = Some "0.0 mm"%string.
Proof.
  intros week. apply (irrigation_delta_unchanged week week (71 # 2)).
  - vm_compute. reflexivity.
  - reflexivity.
Defined.

End Metrics.

(** ** Rows of the schedule *)

Section Rows.

Local Open Scope list_scope.

Context {A : Type}.

Lemma tail_length (n : nat) (rows : list A) :
  List.length (tail n rows) = Nat.min n (List.length rows).
Proof. unfold tail. rewrite length_skipn. lia. Qed.

Lemma tail_suffix (n : nat) (rows : list A) :
  firstn (List.length rows - n) rows ++ tail n rows = rows.
Proof. apply firstn_skipn. Qed.

Lemma last_app_nonempty (l1 l2 : list A) (d : A) :
  l2 <> [] -> last (l1 ++ l2) d = last l2 d.
Proof.
  intros H2. induction l1 as [|a l1 IH]; [reflexivity|].
  simpl. rewrite IH. destruct (l1 ++ l2) eqn:E; [|reflexivity].
  apply app_eq_nil in E. destruct E as [_ E]. contradiction.
Qed.

Lemma tail_last (n : nat) (rows : list A) (d : A) :
  (0 < n)%nat -> last (tail n rows) d = last rows d.
Proof.
  intros Hn. destruct rows as [|a rows]; [reflexivity|].
  rewrite <- (tail_suffix n (a :: rows)) at 2.
  rewrite last_app_nonempty; [reflexivity|].
  intros E. apply (f_equal (@List.length A)) in E.
  rewrite tail_length in E. simpl in E. lia.
Qed.

Lemma last_map_nonempty {B : Type} (f : A -> B) (l : list A) (d : A) (d' : B) :
  l <> [] -> last (map f l) d' = f (last l d).
Proof.
  induction l as [|a l IH]; [contradiction|]. intros _.
  destruct l as [|b l]; [reflexivity|].
  change (last (map f (b :: l)) d' = f (last (b :: l) d)).
  apply IH. discriminate.
Qed.

(** A list of two or more ends with its last two elements. *)
Lemma two_last (rows : list A) :
  (2 <= List.length rows)%nat -> exists h p r, rows = h ++ [p; r].
Proof.
  intros Hlen.
  destruct (rev rows) as [|r [|p t]] eqn:E;
    apply (f_equal (@rev A)) in E; rewrite rev_involutive in E; subst rows;
    simpl in Hlen; try lia.
  exists (rev t), p, r. simpl. now rewrite <- app_assoc.
Qed.

End Rows.

Section PageFacts.

Local Open Scope list_scope.

(** What the page does, by its last row and the number of rows. *)
Lemma dashboard_page_cases (weekly_schedule : list (IndexEntry * WeeklyRecord)) :
  dashboard_page weekly_schedule =
  match rev weekly_schedule with
  | [] => Raised "IndexError"
  | (NaT, _) :: _ => Raised "ValueError"
  | (NotADate _, _) :: _ => Raised "AttributeError"
  | [(Timestamp _ _ _, _)] => Raised "IndexError"
  | (Timestamp _ _ _, r) :: _ :: _ => Returned (recommend r)
  end.
Proof.
  rewrite <- (rev_involutive weekly_schedule) at 1.
  destruct (rev weekly_schedule) as [|[d r] [|p t]]; simpl rev.
  - reflexivity.
  - destruct d; reflexivity.
  - rewrite <- app_assoc. simpl app. destruct d as [year month day | | text].
    + apply dashboard_page_last.
    + unfold dashboard_page. rewrite !map_app. simpl map.
      now rewrite !iloc_last.
    + unfold dashboard_page. rewrite !map_app. simpl map.
      now rewrite !iloc_last.
Qed.

(** X5. The page needs a date on the last row of the schedule and a row
    before it: without rows it fails with IndexError; when the last entry of
    the index is NaT it fails with ValueError, and with AttributeError when
    that entry is not a date, at the metric "Week Ending"; with a date on a
    single row it fails with IndexError at the delta; with a date on the
    last of two rows or more it shows the advisory of the last row. *)
Theorem dashboard_page_needs_two_weeks
    (weekly_schedule : list (IndexEntry * WeeklyRecord)) :
  match rev weekly_schedule with
  | [] => dashboard_page weekly_schedule = Raised "IndexError"
  | (NaT, _) :: _ => dashboard_page weekly_schedule = Raised "ValueError"
  | (NotADate _, _) :: _ => dashboard_page weekly_schedule = Raised "AttributeError"
  | [(Timestamp _ _ _, _)] => dashboard_page weekly_schedule = Raised "IndexError"
  | (Timestamp _ _ _, r) :: _ :: _ =>
      dashboard_page weekly_schedule = Returned (recommend r)
  end.
Proof.
  rewrite (dashboard_page_cases weekly_schedule).
  destruct (rev weekly_schedule) as [|[[year month day | | text] r] [|p t]];
    reflexivity.
Qed.

(** X6. The three series of the chart "Water Balance - Last 12 Weeks" have
    one length, 12 or the number of weeks when there are fewer, and hold
    the columns of the last weeks of the schedule, in its order. *)
Theorem water_balance_chart_last_weeks (weekly_schedule : list WeeklyRecord) :
  exists older recent : list WeeklyRecord,
    weekly_schedule = older ++ recent /\
    List.length recent = Nat.min 12 (List.length weekly_schedule) /\
    map Chart.y (water_balance_chart weekly_schedule) =
      [map ETc_week_mm recent; map Rainfall_effective_mm recent;
       map Irrigation_needed_mm recent] /\
    (forall bar, In bar (water_balance_chart weekly_schedule) ->
                 List.length (Chart.y bar) = Nat.min 12 (List.length weekly_schedule)).
Proof.
  exists (firstn (List.length weekly_schedule - 12) weekly_schedule),
         (tail 12 weekly_schedule).
  split; [symmetry; apply tail_suffix|].
  split; [apply tail_length|].
  split; [reflexivity|].
  intros bar [<- | [<- | [<- | []]]]; cbn [Chart.y]; rewrite length_map; apply tail_length.
Qed.

(** X7. The advisory is about the last bar of the chart: when the page
    shows an advisory, it is the one of the last height of the series
    "Irrigation Required" of the chart of the rows of the schedule. *)
Theorem advisory_is_for_last_bar
    (weekly_schedule : list (IndexEntry * WeeklyRecord)) (a : Advisory) :
  dashboard_page weekly_schedule = Returned a ->
  exists bar,
    nth_error (water_balance_chart (map snd weekly_schedule)) 2 = Some bar /\
    Chart.name bar = "Irrigation Required"%string /\
    a = classify (last (Chart.y bar) nan).
Proof.
  intros Ha.
  destruct weekly_schedule as [|x older] using rev_ind; [discriminate|].
  clear IHolder. destruct x as [d r].
  apply dashboard_page_returned in Ha. destruct Ha as [-> _].
  eexists. split; [reflexivity|]. split; [reflexivity|].
  cbn [Chart.y]. rewrite (last_map_nonempty Irrigation_needed_mm _ r).
  - rewrite tail_last by lia. rewrite map_app. simpl map.
    now rewrite last_last.
  - intros E. apply (f_equal (@List.length WeeklyRecord)) in E.
    rewrite tail_length, length_map, length_app in E.
    cbn [Datatypes.length] in E. lia.
Qed.

Lemma advisory_is_for_last_bar_witness :
  let week (x : float64) :=
    {| ETc_week_mm := float_of_int 30; Rainfall_week_mm := float_of_int 12;
       Rainfall_effective_mm := float_of_int 9; Irrigation_needed_mm := x |} in
  exists bar,
    nth_error
      (water_balance_chart
         (map snd [(Timestamp 2025 11 2, week (float_of_int 3));
                   (Timestamp 2025 11 9, week (float_of_int 22))])) 2
      = Some bar /\
    Chart.name bar = "Irrigation Required"%string /\
    classify (float_of_int 22) = classify (last (Chart.y bar) nan).
Proof.
  intros week.
  apply (advisory_is_for_last_bar
           [(Timestamp 2025 11 2, week (float_of_int 3));
            (Timestamp 2025 11 9, week (float_of_int 22))]).
  reflexivity.
Defined.

End PageFacts.

(** * Loading and navigation *)

Section LoadingFacts.

Local Open Scope list_scope.

Variables Frame Pickle : Type.
Variable read_csv : string -> Script.result Frame.
Variable pickle_load : string -> Script.result Pickle.

(** X8. A missing data file ends the run: when the read of one of the three
    files raises FileNotFoundError and the reads before it succeed,
    [load_data] shows the one error "Data file not found: " followed by the
    text of the exception, and stops; the files after it are not looked at. *)
Theorem load_data_missing_file
    (before after : list string) (path e : string) :
  data_files = (before ++ path :: after)%list ->
  Forall (fun p => exists frame, read_csv p = Script.Ok frame) before ->
  read_csv path = Script.Exn "FileNotFoundError" e ->
  load_data Frame read_csv =
    ([Script.error ("Data file not found: " ++ e)], Script.Stopped).
Proof.
  intros Hfiles Hbefore Hpath. unfold data_files in Hfiles. unfold load_data.
  destruct before as [|p1 [|p2 [|p3 before]]]; simpl in Hfiles.
  - injection Hfiles as <- _. rewrite Hpath. reflexivity.
  - injection Hfiles as <- <- _.
    inversion Hbefore as [|? ? [f1 H1] _]; subst. rewrite H1. simpl.
    rewrite Hpath. reflexivity.
  - injection Hfiles as <- <- <- _.
    inversion Hbefore as [|? ? [f1 H1] Hrest]; subst.
    inversion Hrest as [|? ? [f2 H2] _]; subst.
    rewrite H1. simpl. rewrite H2. simpl. rewrite Hpath. reflexivity.
  - exfalso. injection Hfiles as _ _ _ Hnil. destruct before; discriminate.
Qed.

(** The first read that raises decides: FileNotFoundError is turned into
    the error and the stop, any other exception is the result. *)
Lemma load_data_first_failure
    (before after : list string) (path class e : string) :
  data_files = (before ++ path :: after)%list ->
  Forall (fun p => exists frame, read_csv p = Script.Ok frame) before ->
  read_csv path = Script.Exn class e ->
  load_data Frame read_csv =
    if (class =? "FileNotFoundError")%string
    then ([Script.error ("Data file not found: " ++ e)], Script.Stopped)
    else ([], Script.Exn class e).
Proof.
  intros Hfiles Hbefore Hpath. unfold data_files in Hfiles. unfold load_data.
  destruct before as [|p1 [|p2 [|p3 before]]]; simpl in Hfiles.
  - injection Hfiles as <- _. rewrite Hpath. reflexivity.
  - injection Hfiles as <- <- _.
    inversion Hbefore as [|? ? [f1 H1] _]; subst. rewrite H1. simpl.
    rewrite Hpath. reflexivity.
  - injection Hfiles as <- <- <- _.
    inversion Hbefore as [|? ? [f1 H1] Hrest]; subst.
    inversion Hrest as [|? ? [f2 H2] _]; subst.
    rewrite H1. simpl. rewrite H2. simpl. rewrite Hpath. reflexivity.
  - exfalso. injection Hfiles as _ _ _ Hnil. destruct before; discriminate.
Qed.

(** X9. [load_data] lets no FileNotFoundError out, and it shows nothing
    unless it stops the run, with one error.  Any other exception of a read
    passes through as it is, with nothing shown, and when the three reads
    succeed their tables are returned, with nothing shown. *)
Theorem load_data_catches_file_not_found :
  (forall e, snd (load_data Frame read_csv) <> Script.Exn "FileNotFoundError" e) /\
  (fst (load_data Frame read_csv) = [] \/
   exists e, load_data Frame read_csv =
               ([Script.error ("Data file not found: " ++ e)], Script.Stopped)) /\
  (forall (before after : list string) (path class e : string),
     data_files = (before ++ path :: after)%list ->
     Forall (fun p => exists frame, read_csv p = Script.Ok frame) before ->
     read_csv path = Script.Exn class e ->
     class <> "FileNotFoundError" ->
     load_data Frame read_csv = ([], Script.Exn class e)) /\
  (forall data weekly forecast : Frame,
     read_csv "gatsibo_complete_irrigation_data.csv" = Script.Ok data ->
     read_csv "gatsibo_irrigation_schedule_weekly.csv" = Script.Ok weekly ->
     read_csv "irrigation_forecast_7days.csv" = Script.Ok forecast ->
     load_data Frame read_csv = ([], Script.Ok (data, weekly, forecast))).
Proof.
  split; [|split; [|split]].
  3: { intros before after path class e Hfiles Hbefore Hpath Hne.
       rewrite (load_data_first_failure before after path class e Hfiles Hbefore Hpath).
       destruct (String.eqb_spec class "FileNotFoundError"); [contradiction | reflexivity]. }
  3: { intros data weekly forecast H1 H2 H3. unfold load_data.
       rewrite H1. simpl. rewrite H2. simpl. rewrite H3. reflexivity. }
  all: unfold load_data;
    destruct (read_csv "gatsibo_complete_irrigation_data.csv") as [f1 | c1 e1 |];
    simpl;
    [destruct (read_csv "gatsibo_irrigation_schedule_weekly.csv") as [f2 | c2 e2 |];
       simpl;
       [destruct (read_csv "irrigation_forecast_7days.csv") as [f3 | c3 e3 |]; simpl
       | | ]
    | | ];
    try discriminate; try (now left);
    match goal with
    | |- context [(?c =? _)%string] =>
        destruct (String.eqb_spec c "FileNotFoundError") as [-> | Hne]; simpl
    end;
    try discriminate; try congruence; try (now left);
    right; eexists; reflexivity.
Qed.

(** X10. A missing model is not fatal: when the first pickle is missing, or
    it loads and the second one is missing, [load_model] warns once and
    returns no model and no features, the model it has loaded included. *)
Theorem load_model_missing_file (e : string) :
  pickle_load "irrigation_ml_model.pkl" = Script.Exn "FileNotFoundError" e \/
  ((exists model, pickle_load "irrigation_ml_model.pkl" = Script.Ok model) /\
   pickle_load "model_features.pkl" = Script.Exn "FileNotFoundError" e) ->
  load_model Pickle pickle_load =
    ([Script.warning "ML model not found. Some features will be limited."],
     Script.Ok (None, None)).
Proof.
  unfold load_model. intros [H1 | [[model H1] H2]]; rewrite H1; simpl.
  - reflexivity.
  - rewrite H2. reflexivity.
Qed.

(** X11. [load_model] returns a model and features together or neither:
    both are there exactly when the two pickles loaded, and then nothing
    is shown; it lets no FileNotFoundError out. *)
Theorem load_model_both_or_none :
  (forall e, snd (load_model Pickle pickle_load) <> Script.Exn "FileNotFoundError" e) /\
  (forall model features,
     snd (load_model Pickle pickle_load) = Script.Ok (model, features) ->
     (model = None /\ features = None /\
      fst (load_model Pickle pickle_load) =
        [Script.warning "ML model not found. Some features will be limited."]) \/
     (exists m f,
        model = Some m /\ features = Some f /\
        pickle_load "irrigation_ml_model.pkl" = Script.Ok m /\
        pickle_load "model_features.pkl" = Script.Ok f /\
        fst (load_model Pickle pickle_load) = [])).
Proof.
  unfold load_model.
  destruct (pickle_load "irrigation_ml_model.pkl") as [m | c1 e1 |]; simpl;
    [destruct (pickle_load "model_features.pkl") as [f | c2 e2 |]; simpl | | ];
    try match goal with
    | |- context [(?c =? _)%string] =>
        destruct (String.eqb_spec c "FileNotFoundError") as [-> | Hne]; simpl
    end;
    (split; [try discriminate; congruence|]);
    intros model features H; try discriminate H; injection H as <- <-;
    ((left; repeat split; reflexivity) ||
     (right; exists m, f; repeat split; reflexivity)).
Qed.

End LoadingFacts.

Lemma load_data_missing_file_witness :
  let read_csv (path : string) : Script.result unit :=
    if (path =? "gatsibo_irrigation_schedule_weekly.csv")%string
    then Script.Exn "FileNotFoundError"
           "[Errno 2] No such file or directory: 'gatsibo_irrigation_schedule_weekly.csv'"
    else Script.Ok tt in
  load_data unit read_csv =
    ([Script.error
        "Data file not found: [Errno 2] No such file or directory: 'gatsibo_irrigation_schedule_weekly.csv'"],
     Script.Stopped).
Proof.
  intros read_csv'.
  apply (load_data_missing_file unit read_csv'
           ["gatsibo_complete_irrigation_data.csv"] ["irrigation_forecast_7days.csv"]
           "gatsibo_irrigation_schedule_weekly.csv").
  - reflexivity.
  - constructor; [exists tt; reflexivity | constructor].
  - reflexivity.
Defined.

Lemma load_model_missing_file_witness :
  let pickle_load (path : string) : Script.result nat :=
    if (path =? "irrigation_ml_model.pkl")%string then Script.Ok 7%nat
    else Script.Exn "FileNotFoundError"
           "[Errno 2] No such file or directory: 'model_features.pkl'" in
  load_model nat pickle_load =
    ([Script.warning "ML model not found. Some features will be limited."],
     Script.Ok (None, None)).
Proof.
  intros pickle_load'.
  apply (load_model_missing_file nat pickle_load'
           "[Errno 2] No such file or directory: 'model_features.pkl'").
  right. split; [exists 7%nat; reflexivity | reflexivity].
Defined.

Section NavigationFacts.

Local Open Scope list_scope.

(** X12. Each option of the navigation has its branch, two options never
    share one, and no other value of [page] has any: the chain of tests on
    [page] and the list of the radio agree. *)
Theorem page_branch_of_sections :
  (forall page, In page sections <-> page_branch page <> None) /\
  (forall p1 p2 b, page_branch p1 = Some b -> page_branch p2 = Some b -> p1 = p2) /\
  (forall b, exists page, In page sections /\ page_branch page = Some b).
Proof.
  assert (Hinv : forall page b, page_branch page = Some b ->
            match b with
            | Dashboard => page = "Dashboard"
            | Forecast7Day => page = "7-Day Forecast"
            | HistoricalAnalysis => page = "Historical Analysis"
            | AboutGatsibo => page = "About Gatsibo"
            | AboutThisTool => page = "About This Tool"
            end%string).
  { intros page b. unfold page_branch.
    repeat match goal with
    | |- context [(page =? ?s)%string] =>
        destruct (String.eqb_spec page s) as [-> | ?]
    end; intros H; try discriminate H; injection H as <-; reflexivity. }
  split; [|split].
  - intros page. split.
    + unfold sections. simpl.
      intros [<- | [<- | [<- | [<- | [<- | []]]]]]; discriminate.
    + destruct (page_branch page) as [b|] eqn:E; [intros _ | congruence].
      apply Hinv in E. destruct b; subst page; unfold sections; simpl; tauto.
  - intros p1 p2 b H1 H2. apply Hinv in H1. apply Hinv in H2.
    destruct b; congruence.
  - intros b. destruct b;
      [exists "Dashboard"%string | exists "7-Day Forecast"%string
       | exists "Historical Analysis"%string | exists "About Gatsibo"%string
       | exists "About This Tool"%string];
      (split; [unfold sections; simpl; tauto | reflexivity]).
Qed.

End NavigationFacts.

(** * Monthly patterns *)

Section MonthlyFacts.

Local Open Scope list_scope.
Local Open Scope nat_scope.

Variables Row Mean : Type.
Variable mean : list Row -> Mean.

Lemma has_key_iff (data : list (nat * Row)) (k : nat) :
  has_key Row data k = true <-> In k (map fst data).
Proof.
  unfold has_key. rewrite existsb_exists, in_map_iff. split.
  - intros (r & Hr & E). apply Nat.eqb_eq in E. now exists r.
  - intros (r & E & Hr). exists r. split; [exact Hr | now apply Nat.eqb_eq].
Qed.

Lemma in_le_list_max (l : list nat) (k : nat) : In k l -> k <= list_max l.
Proof.
  intros Hk. assert (H : Forall (fun x => x <= list_max l) l)
    by (apply list_max_le; lia).
  rewrite Forall_forall in H. now apply H.
Qed.

(** The keys of the groups are the keys of the rows, once each. *)
Lemma group_keys (data : list (nat * Row)) :
  let keys := filter (has_key Row data) (seq 0 (S (list_max (map fst data)))) in
  NoDup keys /\ (forall k, In k keys <-> In k (map fst data)) /\
  map fst (groupby Row data) = keys.
Proof.
  intros keys. split; [|split].
  - apply NoDup_filter, seq_NoDup.
  - intros k. unfold keys. rewrite filter_In, in_seq, has_key_iff. split.
    + tauto.
    + intros Hk. split; [|exact Hk]. apply in_le_list_max in Hk. lia.
  - unfold groupby. rewrite map_map. simpl. apply map_id.
Qed.

Section Months.

Variable data : list (nat * Row).
Hypothesis dates : Forall (fun r => 1 <= fst r <= 12) data.

Lemma month_range (k : nat) : In k (map fst data) -> 1 <= k <= 12.
Proof.
  rewrite in_map_iff. intros (r & <- & Hr).
  rewrite Forall_forall in dates. now apply dates.
Qed.

Lemma groups_at_most_12 : List.length (groupby Row data) <= 12.
Proof.
  destruct (group_keys data) as (Hnd & Hin & Hk).
  rewrite <- (length_map fst), Hk.
  change 12 with (List.length (seq 1 12)).
  apply NoDup_incl_length; [exact Hnd|].
  intros k Hk'. apply Hin, month_range in Hk'. apply in_seq. lia.
Qed.

Lemma groups_12_iff :
  List.length (groupby Row data) = 12 <->
  (forall m, 1 <= m <= 12 -> In m (map fst data)).
Proof.
  destruct (group_keys data) as (Hnd & Hin & Hk).
  rewrite <- (length_map fst), Hk. split.
  - intros Hlen m Hm. apply Hin.
    apply (NoDup_length_incl Hnd (l' := seq 1 12)).
    + rewrite Hlen. reflexivity.
    + intros k Hk'. apply Hin, month_range in Hk'. apply in_seq. lia.
    + apply in_seq. lia.
  - intros Hall. apply Nat.le_antisymm.
    + pose proof groups_at_most_12 as H. now rewrite <- (length_map fst), Hk in H.
    + change 12 with (List.length (seq 1 12)).
      apply NoDup_incl_length; [apply seq_NoDup|].
      intros k Hk'. apply in_seq in Hk'. apply Hin, Hall. lia.
Qed.

Lemma groups_all_months :
  (forall m, 1 <= m <= 12 -> In m (map fst data)) ->
  groupby Row data =
  map (fun k => (k, map snd (filter (fun r => fst r =? k) data))) (seq 1 12).
Proof.
  intros Hall. unfold groupby. f_equal.
  assert (Hmax : list_max (map fst data) = 12).
  { apply Nat.le_antisymm.
    - apply list_max_le. apply Forall_forall. intros k Hk.
      apply month_range in Hk. lia.
    - apply in_le_list_max, Hall. lia. }
  rewrite Hmax. change (seq 0 13) with (0 :: seq 1 12).
  cbn [filter].
  destruct (has_key Row data 0) eqn:E0.
  - apply has_key_iff, month_range in E0. lia.
  - apply forallb_filter_id. apply forallb_forall. intros k Hk.
    apply in_seq in Hk. apply has_key_iff, Hall. lia.
Qed.

Lemma monthly_avg_nonempty :
  data <> [] ->
  monthly_avg Row Mean mean data =
  set_index month_names (map (fun g => (fst g, mean (snd g))) (groupby Row data)).
Proof. unfold monthly_avg. destruct data; [contradiction | reflexivity]. Qed.

(** X13. With valid dates, the monthly table needs all twelve months: on a
    table without rows it fails with AttributeError; on one with rows it
    fails with ValueError exactly when some calendar month has no row, and
    when it succeeds each name labels the mean of the rows of its own
    month, "Jan" the first and "Dec" the twelfth. *)
Theorem monthly_avg_needs_all_months :
  (monthly_avg Row Mean mean data = Raised "AttributeError" <-> data = []) /\
  (monthly_avg Row Mean mean data = Raised "ValueError" <->
   data <> [] /\ exists m, 1 <= m <= 12 /\ ~ In m (map fst data)) /\
  (forall table,
     monthly_avg Row Mean mean data = Returned table ->
     table = map (fun m => (nth (m - 1) month_names "",
                            mean (map snd (filter (fun r => fst r =? m) data))))
                 (seq 1 12)).
Proof.
  assert (Hdec : data = [] \/ data <> [])
    by (destruct data; [now left | now right]).
  destruct Hdec as [Hnil | Hne].
  - rewrite Hnil. unfold monthly_avg. split; [|split].
    + split; reflexivity.
    + split; [discriminate | intros [H _]; now elim H].
    + discriminate.
  - rewrite (monthly_avg_nonempty Hne). unfold set_index. rewrite length_map.
    change (List.length month_names) with 12.
    destruct (Nat.eqb_spec 12 (List.length (groupby Row data))) as [Hlen | Hlen].
    + symmetry in Hlen. pose proof (proj1 groups_12_iff Hlen) as Hall.
      split; [|split].
      * split; [discriminate | intros H; now elim Hne].
      * split; [discriminate|]. intros (_ & m & Hm & Hnot). elim Hnot. now apply Hall.
      * intros table [= <-]. rewrite (groups_all_months Hall). reflexivity.
    + split; [|split]; [split; [discriminate | intros H; now elim Hne] | | discriminate].
      split; [intros _ | reflexivity]. split; [exact Hne|].
      destruct (forallb (has_key Row data) (seq 1 12)) eqn:E.
      * exfalso. apply Hlen. symmetry. apply groups_12_iff. intros m Hm.
        apply has_key_iff. rewrite forallb_forall in E. apply E, in_seq. lia.
      * assert (Hex : exists m, In m (seq 1 12) /\ has_key Row data m = false).
        { clear -E. induction (seq 1 12) as [|a l IH]; [discriminate|].
          simpl in E. apply andb_false_iff in E. destruct E as [E | E].
          - exists a. split; [now left | exact E].
          - destruct (IH E) as (m & Hm & Hk). exists m. split; [now right | exact Hk]. }
        destruct Hex as (m & Hm & Hk). exists m. split; [apply in_seq in Hm; lia|].
        intros Hin. apply has_key_iff in Hin. congruence.
Qed.

End Months.

End MonthlyFacts.

Lemma monthly_avg_needs_all_months_witness :
  let data := [(1, 10); (2, 20); (2, 40); (12, 5)]%nat in
  monthly_avg nat nat (fun rows => list_max rows) data = Raised "ValueError" <->
  data <> [] /\ exists m, (1 <= m <= 12)%nat /\ ~ In m (map fst data).
Proof.
  intros data.
  apply (monthly_avg_needs_all_months nat nat (fun rows => list_max rows) data).
  repeat constructor.
Defined.
